(** * A model of [pyutils8ccr.menu]: the paged, key-driven selection menu

    The Python module [src/pyutils8ccr/menu.py] defines [MenuItem],
    [InvalidMenuKeyError] and [PagedMenu].  This file embeds the parts of
    [PagedMenu] that carry state: construction ([__init__] with
    [parse_items]), [get_page_items], [navigate] and the [run] loop.

    Python integers are [Z]; Python [str] values are Stdlib [string]s; the
    exceptions raised by [navigate] and [__init__] (including the
    [TypeError] of [hash] on an unhashable item value) are constructors of
    the result types below.  Python's [print] of [display_page] in [run] only
    writes output and does not change the engine, so it is not modelled. *)

From Stdlib Require Import ZArith List String Ascii Bool Lia.
From Stdlib Require Import DecimalString.
Import ListNotations.

Open Scope Z_scope.

(** ** Python string and list primitives used by the menu *)

(** [str.index(sub)]: the lowest position where [needle] occurs in [hay].
    As in Python, the empty string occurs at position 0 of every string. *)
Fixpoint str_find (hay needle : string) : option nat :=
  if String.prefix needle hay then Some 0%nat
  else match hay with
       | EmptyString => None
       | String _ rest => option_map S (str_find rest needle)
       end.

(** [needle in hay] for Python strings: substring containment. *)
Definition str_contains (hay needle : string) : bool :=
  match str_find hay needle with Some _ => true | None => false end.

(** The characters [str.isspace] accepts in the ASCII range. *)
Definition is_space (c : ascii) : bool :=
  let n := nat_of_ascii c in
  ((9 <=? n) && (n <=? 13))%nat || ((28 <=? n) && (n <=? 32))%nat.

Fixpoint drop_spaces (l : list ascii) : list ascii :=
  match l with
  | [] => []
  | c :: rest => if is_space c then drop_spaces rest else l
  end.

(** [str.strip()]: remove leading and trailing whitespace. *)
Definition strip (s : string) : string :=
  string_of_list_ascii
    (rev (drop_spaces (rev (drop_spaces (list_ascii_of_string s))))).

(** Index adjustment of a Python slice bound (step 1): a negative bound
    counts from the end, then the bound is clamped to [0, len]. *)
Definition slice_bound (len i : Z) : Z :=
  if i <? 0 then Z.max 0 (i + len) else Z.min i len.

(** [l[start:stop]] for a Python list. *)
Definition py_slice {A} (l : list A) (start stop : Z) : list A :=
  let n := Z.of_nat (List.length l) in
  let a := slice_bound n start in
  let b := slice_bound n stop in
  firstn (Z.to_nat (b - a)) (skipn (Z.to_nat a) l).

(** Python truthiness of an optional navigation key ([str | None]). *)
Definition key_enabled (k : option string) : bool :=
  match k with Some s => negb (String.eqb s "") | None => false end.

(** [command == key and key] for an optional key. *)
Definition matches_key (command : string) (k : option string) : bool :=
  match k with
  | Some s => String.eqb command s && negb (String.eqb s "")
  | None => false
  end.

(** [key and key in keys] for an optional key. *)
Definition key_in (k : option string) (keys : string) : bool :=
  match k with
  | Some s => negb (String.eqb s "") && str_contains keys s
  | None => false
  end.

(** ** Data model *)

Record MenuItem (V Id : Type) := mkMenuItem {
  value : V;
  name : string;
  id : Id
}.
Arguments mkMenuItem {V Id}.
Arguments value {V Id}.
Arguments name {V Id}.
Arguments id {V Id}.

(** The fields of a [PagedMenu] object.  Python creates [selected] and
    [selected_value] in [run] (as [False] and [default]) or when [navigate]
    first writes them; [navigate] never reads them, so the model gives them
    those values from construction on. *)
Record PagedMenu (V Id : Type) := mkPagedMenu {
  items : list (MenuItem V Id);
  page_size : Z;
  keys : string;
  next_page_key : string;
  previous_page_key : string;
  first_page_key : option string;
  last_page_key : option string;
  default : V;
  total_pages : Z;
  current_page : Z;
  status : string;
  selected : bool;
  selected_value : V
}.
Arguments mkPagedMenu {V Id}.
Arguments items {V Id}.
Arguments page_size {V Id}.
Arguments keys {V Id}.
Arguments next_page_key {V Id}.
Arguments previous_page_key {V Id}.
Arguments first_page_key {V Id}.
Arguments last_page_key {V Id}.
Arguments default {V Id}.
Arguments total_pages {V Id}.
Arguments current_page {V Id}.
Arguments status {V Id}.
Arguments selected {V Id}.
Arguments selected_value {V Id}.

Section Updates.
Context {V Id : Type}.

(** [self.current_page = p] *)
Definition set_current_page (m : PagedMenu V Id) (p : Z) : PagedMenu V Id :=
  mkPagedMenu (items m) (page_size m) (keys m) (next_page_key m)
    (previous_page_key m) (first_page_key m) (last_page_key m) (default m)
    (total_pages m) p (status m) (selected m) (selected_value m).

(** [self.selected = True; self.selected_value = v] *)
Definition set_selection (m : PagedMenu V Id) (v : V) : PagedMenu V Id :=
  mkPagedMenu (items m) (page_size m) (keys m) (next_page_key m)
    (previous_page_key m) (first_page_key m) (last_page_key m) (default m)
    (total_pages m) (current_page m) (status m) true v.

(** [self.selected = False; self.selected_value = self.default] *)
Definition reset_selection (m : PagedMenu V Id) : PagedMenu V Id :=
  mkPagedMenu (items m) (page_size m) (keys m) (next_page_key m)
    (previous_page_key m) (first_page_key m) (last_page_key m) (default m)
    (total_pages m) (current_page m) (status m) false (default m).

(** [self.status = s] *)
Definition set_status (m : PagedMenu V Id) (s : string) : PagedMenu V Id :=
  mkPagedMenu (items m) (page_size m) (keys m) (next_page_key m)
    (previous_page_key m) (first_page_key m) (last_page_key m) (default m)
    (total_pages m) (current_page m) s (selected m) (selected_value m).

End Updates.

(** ** Construction *)

(** The exceptions raised by [PagedMenu.__init__]: the [ValueError] of a
    failed check, with its message, or the [TypeError] that [hash(value)]
    raises in [parse_items] for an unhashable item value. *)
Inductive ConfigError := ValueError (message : string) | TypeError.

(** [[f(x) for x in l]] where each [f(x)] may raise: the first failure
    aborts the whole list. *)
Fixpoint map_opt {A B} (f : A -> option B) (l : list A) : option (list B) :=
  match l with
  | [] => Some []
  | x :: rest =>
      match f x with
      | None => None
      | Some y =>
          match map_opt f rest with
          | None => None
          | Some ys => Some (y :: ys)
          end
      end
  end.

Section Construction.
Context {V Id : Type}.
(** [str(value)] and [hash(value)], the defaults of [MenuItem]; [hash]
    gives [None] where Python raises [TypeError] (an unhashable value such
    as a list or a dict). *)
Variable str_value : V -> string.
Variable hash_value : V -> option Id.

(** [MenuItem(value, name=None, id=None)]: [hash(value)] is only computed
    when no id is given; [None] is its [TypeError]. *)
Definition make_item (v : V) (nm : option string) (i : option Id)
    : option (MenuItem V Id) :=
  let n := match nm with Some n => n | None => str_value v end in
  match i with
  | Some x => Some (mkMenuItem v n x)
  | None =>
      match hash_value v with
      | Some h => Some (mkMenuItem v n h)
      | None => None
      end
  end.

(** [PagedMenu.parse_items]: raw items, then bare values, then
    [(name, value)] pairs, then [(value, name, id)] triples; a [None] name
    or id in a tuple falls back to [MenuItem]'s default.  [None] is the
    [TypeError] of an unhashable value. *)
Definition parse_items (menu_items : list (MenuItem V Id)) (value_items : list V)
    (named_items : list (option string * V))
    (id_items : list (V * option string * option Id))
    : option (list (MenuItem V Id)) :=
  match map_opt (fun v => make_item v None None) value_items with
  | None => None
  | Some vs =>
      match map_opt (fun '(n, v) => make_item v n None) named_items with
      | None => None
      | Some ns =>
          match map_opt (fun '(v, n, i) => make_item v n i) id_items with
          | None => None
          | Some is_ => Some (menu_items ++ vs ++ ns ++ is_)
          end
      end
  end.

(** [PagedMenu.__init__]: either the exception it raises or the new
    engine.  [parse_items] runs before every check. *)
Definition construct (menu_items : list (MenuItem V Id)) (value_items : list V)
    (named_items : list (option string * V))
    (id_items : list (V * option string * option Id))
    (page_size : Z) (keys : string)
    (next_page_key previous_page_key : string)
    (first_page_key last_page_key : option string) (default : V)
    : ConfigError + PagedMenu V Id :=
  match parse_items menu_items value_items named_items id_items with
  | None => inl TypeError
  | Some its =>
    if page_size <? 2 then inl (ValueError "Page size less than 2")
    else if (String.length keys =? 0)%nat || (Z.of_nat (String.length keys) <? 2)
    then inl (ValueError "Less than 2 keys defined")
    else if Z.of_nat (String.length keys) <? page_size
    then inl (ValueError "Not enough keys for the page size")
    else if str_contains keys next_page_key
    then inl (ValueError "Next page key cannot be used as menu key")
    else if str_contains keys previous_page_key
    then inl (ValueError "Previous page key cannot be used as menu key")
    else if key_in first_page_key keys
    then inl (ValueError "First page key cannot be used as menu key")
    else if key_in last_page_key keys
    then inl (ValueError "Last page key cannot be used as menu key")
    else
      let ps := Z.min page_size (Z.of_nat (String.length keys)) in
      inr (mkPagedMenu its ps (substring 0 (Z.to_nat ps) keys)
             next_page_key previous_page_key first_page_key last_page_key default
             ((Z.of_nat (List.length its) + ps - 1) / ps)
             0 "" false default)
  end.

End Construction.

(** ** Paging, commands and the run loop *)

Section Engine.
Context {V Id : Type}.

(** [PagedMenu.get_page_items] *)
Definition get_page_items (self : PagedMenu V Id) (page : Z) : list (MenuItem V Id) :=
  let start := page * page_size self in
  let stop := start + page_size self in
  py_slice (items self) start stop.

(** Outcome of [navigate]: it returns normally, or raises
    [InvalidMenuKeyError(key)]; in both cases with the fields as they are
    at that point (Python's mutations before a [raise] persist). *)
Inductive NavOutcome :=
| Returned (self : PagedMenu V Id)
| InvalidMenuKeyError (self : PagedMenu V Id) (key : string).

(** [PagedMenu.navigate].  The first [if] is not part of the [elif] chain
    that follows it, as in the source. *)
Definition navigate (self : PagedMenu V Id) (command : string) : NavOutcome :=
  let self := if String.eqb command "" then set_selection self (default self)
              else self in
  if String.eqb command (next_page_key self) then
    if current_page self <? total_pages self - 1
    then Returned (set_current_page self (current_page self + 1))
    else Returned self
  else if String.eqb command (previous_page_key self) then
    if 0 <? current_page self
    then Returned (set_current_page self (current_page self - 1))
    else Returned self
  else if matches_key command (first_page_key self) then
    Returned (set_current_page self 0)
  else if matches_key command (last_page_key self) then
    Returned (set_current_page self (total_pages self - 1))
  else if str_contains (keys self) command then
    match str_find (keys self) command with
    | Some index =>
        if Z.of_nat index
             <? Z.of_nat (List.length (get_page_items self (current_page self)))
        then match nth_error (get_page_items self (current_page self)) index with
             | Some item => Returned (set_selection self (value item))
             | None => InvalidMenuKeyError self command (* unreachable *)
             end
        else InvalidMenuKeyError self command
    | None => InvalidMenuKeyError self command (* unreachable *)
    end
  else InvalidMenuKeyError self command.

(** The status text [run] stores for a rejected command. *)
Definition error_status (key : string) : string :=
  "Error: " ++ key ++ " is not a valid menu key.".

(** Outcome of [run]: the selected value, or the [EOFError] that [input]
    raises when the input ends before a selection. *)
Inductive RunOutcome :=
| RunReturned (v : V)
| RunEOFError.

(** The [while True] loop of [PagedMenu.run], reading the given input
    lines in order. *)
Fixpoint run_loop (self : PagedMenu V Id) (lines : list string) : RunOutcome :=
  match lines with
  | [] => RunEOFError
  | line :: rest =>
      let command := strip line in
      match navigate self command with
      | Returned self' =>
          if selected self' then RunReturned (selected_value self')
          else run_loop self' rest
      | InvalidMenuKeyError self' key =>
          run_loop (set_status self' (error_status key)) rest
      end
  end.

(** [PagedMenu.run] *)
Definition run (self : PagedMenu V Id) (lines : list string) : RunOutcome :=
  run_loop (reset_selection self) lines.

End Engine.

Arguments Returned {V Id}.
Arguments InvalidMenuKeyError {V Id}.
Arguments RunReturned {V}.
Arguments RunEOFError {V}.

(** ** Rendering a page *)

(** [str(n)] for a Python [int]. *)
Definition py_str_int (z : Z) : string := NilZero.string_of_int (Z.to_int z).

Definition newline : string := String (ascii_of_nat 10) EmptyString.

Section Display.
Context {V Id : Type}.
(** [format(value)], used by the f-string of an item line. *)
Variable str_value : V -> string.

(** [f"{self.keys[i]}: {item.name} ({item.value})"]; [None] is the
    [IndexError] of [self.keys[i]] past the end of the keys. *)
Definition item_line (self : PagedMenu V Id) (i : nat) (item : MenuItem V Id)
    : option string :=
  match String.get i (keys self) with
  | Some k =>
      Some (String k EmptyString ++ ": " ++ name item ++ " ("
            ++ str_value (value item) ++ ")")%string
  | None => None
  end.

(** The [for i, item in enumerate(items)] loop, from position [i] on. *)
Fixpoint item_lines (self : PagedMenu V Id) (i : nat) (its : list (MenuItem V Id))
    : option (list string) :=
  match its with
  | [] => Some []
  | item :: rest =>
      match item_line self i item with
      | None => None
      | Some l =>
          match item_lines self (S i) rest with
          | None => None
          | Some ls => Some (l :: ls)
          end
      end
  end.

(** The navigation legend: only the truthy keys, in the order First,
    Previous, Next, Last. *)
Definition nav_display (self : PagedMenu V Id) : list string :=
  (match first_page_key self with
   | Some f => if String.eqb f "" then [] else [(f ++ ": First")%string]
   | None => []
   end)
  ++ (if String.eqb (previous_page_key self) "" then []
      else [(previous_page_key self ++ ": Previous")%string])
  ++ (if String.eqb (next_page_key self) "" then []
      else [(next_page_key self ++ ": Next")%string])
  ++ (match last_page_key self with
      | Some l => if String.eqb l "" then [] else [(l ++ ": Last")%string]
      | None => []
      end).

(** [PagedMenu.display_page]; [None] is an [IndexError] raised while
    formatting an item line. *)
Definition display_page (self : PagedMenu V Id) (page : Z) : option string :=
  let its := get_page_items self page in
  match its with
  | [] => Some "No items to display."%string
  | _ =>
      match item_lines self 0 its with
      | None => None
      | Some display =>
          Some (String.concat newline
                  (display
                   ++ [String.concat " " (nav_display self)]
                   ++ [(py_str_int (page + 1) ++ "/" ++ py_str_int (total_pages self))%string]
                   ++ (if String.eqb (status self) "" then [] else [status self])))
      end
  end.

End Display.

(** ** Concrete menus *)

Section Concrete.
Local Open Scope string_scope.

(** A menu over string values whose [str] is the identity and whose [hash]
    is a constant (ids are never read by the engine). *)
Definition sample_menu (vals : list string) (ps : Z) (ks : string)
    : ConfigError + PagedMenu string Z :=
  construct (fun s => s) (fun _ => Some 0) [] vals [] [] ps ks "." ","
    (Some "<") (Some ">") "default".

Definition unwrap (r : ConfigError + PagedMenu string Z) : PagedMenu string Z :=
  match r with
  | inr m => m
  | inl _ => mkPagedMenu [] 2 "ab" "." "," None None "none" 0 0 "" false "none"
  end.

(** The scenario of the spec: values A..E, two per page, keys "ab". *)
Definition abcde : PagedMenu string Z := unwrap (sample_menu ["A"; "B"; "C"; "D"; "E"] 2 "ab").

(** The same configuration over an empty item collection. *)
Definition empty_menu : PagedMenu string Z := unwrap (sample_menu [] 2 "ab").

(** A valid configuration whose key alphabet repeats a key. *)
Definition dup_menu : PagedMenu string Z := unwrap (sample_menu ["A"; "B"] 2 "aa").

(** Three items per page, keys "abc". *)
Definition abc_menu : PagedMenu string Z :=
  unwrap (sample_menu ["A"; "B"; "C"; "D"; "E"] 3 "abc").

(** The A..E menu on its second and third pages. *)
Definition page1 : PagedMenu string Z := set_current_page abcde 1.
Definition page2 : PagedMenu string Z := set_current_page abcde 2.

(** Python values with integers and lists, for item values that [hash]
    rejects. *)
#[warnings="-register-all"]
Inductive PyValue := PyInt (z : Z) | PyList (l : list PyValue).

(** [hash(n)] of a Python [int]: reduced modulo [2^61 - 1] keeping the
    sign, with [-1] replaced by [-2]. *)
Definition py_int_hash (z : Z) : Z :=
  let h := (Z.sgn z * (Z.abs z mod (2 ^ 61 - 1)))%Z in
  if (h =? -1)%Z then (-2)%Z else h.

(** [hash(value)]: a list is unhashable ([TypeError]). *)
Definition py_hash (v : PyValue) : option Z :=
  match v with PyInt z => Some (py_int_hash z) | PyList _ => None end.

(** [str(value)] *)
Fixpoint py_str (v : PyValue) : string :=
  match v with
  | PyInt z => py_str_int z
  | PyList l => "[" ++ String.concat ", " (map py_str l) ++ "]"
  end.

End Concrete.

(** ** Engine invariants established by construction *)

(** What [__init__] guarantees about the configuration fields of an engine
    it returns; [navigate] and [run] never write these fields. *)
Definition valid_engine {V Id} (m : PagedMenu V Id) : bool :=
  (2 <=? page_size m)
  && (Z.of_nat (String.length (keys m)) =? page_size m)
  && negb (str_contains (keys m) (next_page_key m))
  && negb (str_contains (keys m) (previous_page_key m))
  && negb (key_in (first_page_key m) (keys m))
  && negb (key_in (last_page_key m) (keys m))
  && (total_pages m
        =? (Z.of_nat (List.length (items m)) + page_size m - 1) / page_size m).

(** The engine after a call of [navigate], whether it returned or raised. *)
Definition nav_state {V Id} (o : @NavOutcome V Id) : PagedMenu V Id :=
  match o with Returned m => m | InvalidMenuKeyError m _ => m end.

(** ** Lemmas on the primitives *)

Lemma substring_prefix_length (s : string) (n : nat) :
  (n <= String.length s)%nat -> String.length (substring 0 n s) = n.
Proof.
  revert n; induction s as [|c s IH]; intros [|n] Hn; simpl in *;
    try lia; try reflexivity.
  f_equal. apply IH. lia.
Qed.

Lemma prefix_of_substring (n s : string) (k : nat) :
  String.prefix n (substring 0 k s) = true -> String.prefix n s = true.
Proof.
  revert s k; induction n as [|a n IH]; intros s k H; [now destruct s|].
  destruct k as [|k]; destruct s as [|b s]; simpl in *; try discriminate.
  destruct (ascii_dec a b); [eauto | discriminate].
Qed.

Lemma str_find_substring (h n : string) (k i : nat) :
  str_find (substring 0 k h) n = Some i -> exists j, str_find h n = Some j.
Proof.
  revert k i; induction h as [|c h IH]; intros k i H.
  - destruct k; simpl in H; eauto.
  - change (str_find (String c h) n) with
      (if String.prefix n (String c h) then Some 0%nat
       else option_map S (str_find h n)).
    destruct (String.prefix n (String c h)) eqn:Ep; [eauto|].
    destruct k as [|k].
    + simpl in H. destruct n; simpl in *; discriminate.
    + change (substring 0 (S k) (String c h)) with (String c (substring 0 k h)) in H.
      change (str_find (String c (substring 0 k h)) n) with
        (if String.prefix n (String c (substring 0 k h)) then Some 0%nat
         else option_map S (str_find (substring 0 k h) n)) in H.
      destruct (String.prefix n (String c (substring 0 k h))) eqn:Ep2.
      * rewrite (prefix_of_substring n (String c h) (S k) Ep2) in Ep. discriminate.
      * destruct (str_find (substring 0 k h) n) as [j|] eqn:Ej; [|discriminate].
        destruct (IH k j Ej) as [j' Hj']. rewrite Hj'. simpl. eauto.
Qed.

Lemma str_contains_substring (h n : string) (k : nat) :
  str_contains (substring 0 k h) n = true -> str_contains h n = true.
Proof.
  unfold str_contains. destruct (str_find (substring 0 k h) n) eqn:E; [|discriminate].
  destruct (str_find_substring _ _ _ _ E) as [j ->]. reflexivity.
Qed.

Lemma key_in_substring (o : option string) (h : string) (k : nat) :
  key_in o (substring 0 k h) = true -> key_in o h = true.
Proof.
  destruct o as [s|]; simpl; [|discriminate].
  intros [H1 H2]%andb_prop. rewrite H1. simpl. eapply str_contains_substring; eauto.
Qed.

(** The position [str.index] reports is where the token really occurs. *)
Lemma str_find_occurs (h n : string) (i : nat) :
  str_find h n = Some i -> substring i (String.length n) h = n.
Proof.
  revert i; induction h as [|c h IH]; intros i H; cbn [str_find] in H.
  - destruct (String.prefix n "") eqn:E; [|discriminate].
    injection H as <-. now apply prefix_correct.
  - destruct (String.prefix n (String c h)) eqn:E.
    + injection H as <-. now apply prefix_correct.
    + destruct (str_find h n) as [j|] eqn:Ej; simpl in H; [|discriminate].
      injection H as <-. simpl. now apply IH.
Qed.

(** For a one-character token, [str.index] is its first position. *)
Lemma str_find_char (h : string) (a : ascii) (i : nat) :
  String.get i h = Some a ->
  (forall j, (j < i)%nat -> String.get j h <> Some a) ->
  str_find h (String a "") = Some i.
Proof.
  revert i; induction h as [|b h IH]; intros i Hi Hfirst; [discriminate|].
  simpl. destruct i as [|i]; simpl in Hi.
  - injection Hi as ->. destruct (ascii_dec a a); [now destruct h|congruence].
  - destruct (ascii_dec a b) as [->|Hne].
    + exfalso. apply (Hfirst 0%nat); [lia|reflexivity].
    + rewrite (IH i Hi); [reflexivity|].
      intros j Hj. apply (Hfirst (S j)). lia.
Qed.

(** A slice of a page starting at a non-negative index is a [skipn] then
    [firstn] of the list. *)
Lemma py_slice_nonneg {A} (l : list A) (a k : Z) :
  0 <= a -> 0 <= k ->
  py_slice l a (a + k) = firstn (Z.to_nat k) (skipn (Z.to_nat a) l).
Proof.
  intros Ha Hk. unfold py_slice, slice_bound.
  destruct (Z.ltb_spec a 0); [lia|]. destruct (Z.ltb_spec (a + k) 0); [lia|].
  set (n := Z.of_nat (List.length l)).
  destruct (Z_le_gt_dec n a).
  - rewrite !skipn_all2 by lia. now rewrite !firstn_nil.
  - replace (Z.min a n) with a by lia.
    destruct (Z_le_gt_dec (a + k) n).
    + f_equal. f_equal. lia.
    + rewrite !firstn_all2; [reflexivity| |]; rewrite length_skipn; lia.
Qed.

(** A slice of length [k] never has more than [k] elements. *)
Lemma py_slice_length {A} (l : list A) (a k : Z) :
  0 <= k -> (List.length (py_slice l a (a + k)) <= Z.to_nat k)%nat.
Proof.
  intros Hk. unfold py_slice. rewrite length_firstn.
  unfold slice_bound.
  destruct (Z.ltb_spec a 0); destruct (Z.ltb_spec (a + k) 0); lia.
Qed.

(** [__init__] returns only engines that satisfy [valid_engine]. *)
Lemma construct_valid {V Id} sv hv mi vi ni ii ps ks nk pk fk lk (d : V)
    (m : PagedMenu V Id) :
  construct sv hv mi vi ni ii ps ks nk pk fk lk d = inr m -> valid_engine m = true.
Proof.
  unfold construct. destruct (parse_items sv hv mi vi ni ii) as [its|]; [|discriminate].
  destruct (Z.ltb_spec ps 2); [discriminate|].
  destruct ((String.length ks =? 0)%nat || (Z.of_nat (String.length ks) <? 2)) eqn:E1;
    [discriminate|].
  destruct (Z.ltb_spec (Z.of_nat (String.length ks)) ps); [discriminate|].
  destruct (str_contains ks nk) eqn:E2; [discriminate|].
  destruct (str_contains ks pk) eqn:E3; [discriminate|].
  destruct (key_in fk ks) eqn:E4; [discriminate|].
  destruct (key_in lk ks) eqn:E5; [discriminate|].
  intros Hm. injection Hm as <-. unfold valid_engine; simpl.
  replace (Z.min ps (Z.of_nat (String.length ks))) with ps by lia.
  rewrite substring_prefix_length by lia.
  rewrite Z2Nat.id by lia. rewrite Z.eqb_refl.
  destruct (Z.leb_spec 2 ps); [|lia]. simpl.
  destruct (str_contains (substring 0 (Z.to_nat ps) ks) nk) eqn:F2;
    [rewrite (str_contains_substring _ _ _ F2) in E2; discriminate|].
  destruct (str_contains (substring 0 (Z.to_nat ps) ks) pk) eqn:F3;
    [rewrite (str_contains_substring _ _ _ F3) in E3; discriminate|].
  destruct (key_in fk (substring 0 (Z.to_nat ps) ks)) eqn:F4;
    [rewrite (key_in_substring _ _ _ F4) in E4; discriminate|].
  destruct (key_in lk (substring 0 (Z.to_nat ps) ks)) eqn:F5;
    [rewrite (key_in_substring _ _ _ F5) in E5; discriminate|].
  simpl. apply Z.eqb_refl.
Qed.

(** ** Lemmas on [get_page_items] and [navigate] *)

(** On a page [>= 0], position [i] of the page is position
    [page * page_size + i] of the items. *)
Lemma get_page_items_nth {V Id} (m : PagedMenu V Id) (page : Z) (i : nat) :
  0 <= page -> 0 <= page_size m ->
  (i < List.length (get_page_items m page))%nat ->
  nth_error (get_page_items m page) i
  = nth_error (items m) (Z.to_nat (page * page_size m) + i).
Proof.
  intros Hp Hs Hi. unfold get_page_items in *. cbv zeta in *.
  rewrite py_slice_nonneg in * by nia.
  rewrite length_firstn in Hi. rewrite nth_error_firstn.
  destruct (Nat.ltb_spec i (Z.to_nat (page_size m))); [|lia].
  apply nth_error_skipn.
Qed.

(** A token of the key alphabet is no enabled navigation key. *)
Lemma matches_key_excluded (c : string) (k : option string) (ks : string) :
  str_contains ks c = true -> negb (key_in k ks) = true -> matches_key c k = false.
Proof.
  destruct k as [f|]; simpl; [|reflexivity]. intros Hin Hk.
  destruct (String.eqb_spec c f) as [->|]; [|reflexivity].
  rewrite Hin in Hk. destruct (f =? "")%string; simpl in *; congruence.
Qed.

(** On a valid engine, a non-empty token found in the key alphabet reaches
    the selection branch of [navigate]. *)
Lemma navigate_key_branch {V Id} (m : PagedMenu V Id) (c : string) (i : nat) :
  valid_engine m = true -> c <> ""%string -> str_find (keys m) c = Some i ->
  navigate m c =
    if Z.of_nat i <? Z.of_nat (List.length (get_page_items m (current_page m)))
    then match nth_error (get_page_items m (current_page m)) i with
         | Some item => Returned (set_selection m (value item))
         | None => InvalidMenuKeyError m c
         end
    else InvalidMenuKeyError m c.
Proof.
  intros Hv Hc Hf. unfold valid_engine in Hv. rewrite !andb_true_iff in Hv.
  destruct Hv as [[[[[[_ _] H3] H4] H5] H6] _].
  assert (Hin : str_contains (keys m) c = true)
    by (unfold str_contains; now rewrite Hf).
  unfold navigate. rewrite (proj2 (String.eqb_neq c "") Hc). cbv beta iota zeta.
  destruct (String.eqb_spec c (next_page_key m)) as [->|_];
    [rewrite Hin in H3; discriminate|].
  destruct (String.eqb_spec c (previous_page_key m)) as [->|_];
    [rewrite Hin in H4; discriminate|].
  rewrite (matches_key_excluded _ _ _ Hin H5), (matches_key_excluded _ _ _ Hin H6).
  rewrite Hin, Hf. reflexivity.
Qed.

(** [navigate] raises with the command it was given. *)
Lemma navigate_raise_key {V Id} (m m' : PagedMenu V Id) (c k : string) :
  navigate m c = InvalidMenuKeyError m' k -> k = c.
Proof.
  unfold navigate. cbv zeta.
  repeat match goal with
         | |- context [if ?b then _ else _] => destruct b
         | |- context [match ?x with _ => _ end] => destruct x
         end; intros H; try discriminate; injection H as _ ->; reflexivity.
Qed.

(** [str.index] reports the first occurrence. *)
Lemma str_find_first (h n : string) (i : nat) :
  str_find h n = Some i ->
  forall j, (j < i)%nat -> substring j (String.length n) h <> n.
Proof.
  revert i; induction h as [|c h IH]; intros i H j Hj; cbn [str_find] in H.
  - destruct (String.prefix n "") eqn:E; [injection H as <-; lia | discriminate].
  - destruct (String.prefix n (String c h)) eqn:E.
    + injection H as <-. lia.
    + destruct (str_find h n) as [i'|] eqn:Ei; simpl in H; [|discriminate].
      injection H as <-. destruct j as [|j].
      * intros Hs. apply prefix_correct in Hs. congruence.
      * simpl. apply (IH i'); [reflexivity|lia].
Qed.

(** Split a goal over every [if] and [match] of an unfolded [navigate]. *)
Ltac nav_split :=
  repeat match goal with
         | |- context [if ?b then _ else _] => destruct b eqn:?
         | |- context [match ?x with _ => _ end] => destruct x eqn:?
         end.

(** [navigate] keeps [current_page] in [0, total_pages - 1] once it is
    there. *)
Lemma navigate_page_in_range {V Id} (m : PagedMenu V Id) (c : string) :
  0 <= current_page m <= total_pages m - 1 ->
  0 <= current_page (nav_state (navigate m c)) <= total_pages m - 1.
Proof.
  intros Hr. unfold navigate. cbv zeta. nav_split; simpl in *;
    rewrite ?Z.ltb_lt, ?Z.ltb_ge in *; lia.
Qed.

(** ** The claims *)

(** C1 (code defect).  The empty command does not always select [default]:
    the first [if] of [navigate] is not followed by a [return], so the
    empty string also reaches [command in self.keys], which holds for every
    key string.  On the spec's A..E menu, [run] on an empty line returns the
    first item "A" instead of [default]; on an empty menu, [navigate ""]
    raises [InvalidMenuKeyError("")]. *)
Theorem navigate_empty_command_not_default :
  default abcde = "default"%string /\
  run abcde [""%string] = RunReturned "A"%string /\
  exists m', navigate empty_menu "" = InvalidMenuKeyError m' "".
Proof.
  split; [reflexivity|]. split; [vm_compute; reflexivity|].
  eexists. vm_compute. reflexivity.
Qed.

(** C3 (code defect).  On a valid engine over no items, [total_pages] is
    0 and the last-page key sets [current_page] to [-1]: it is not a no-op
    and leaves [[0, total_pages - 1]]. *)
Theorem last_page_key_on_empty_menu :
  valid_engine empty_menu = true /\
  total_pages empty_menu = 0 /\ current_page empty_menu = 0 /\
  current_page (nav_state (navigate empty_menu ">")) = -1.
Proof. vm_compute. repeat split. Qed.

(** C4, as amended.  [__init__] first runs [parse_items]; when an item
    value that has to be hashed is unhashable it raises that [TypeError]
    before any check, whatever the configuration.  Otherwise it checks, in
    order: [page_size >= 2]; at least two keys; at least [page_size] keys;
    then that the next, previous, first and last page keys do not occur in
    [keys].  It raises the [ValueError] of the first failed check, whose
    message names the failed invariant and the colliding navigation key, and
    returns an engine only when every check passes.  In particular
    [page_size < 2] fails with the page-size message for every item
    collection that parses, and a [keys] containing [next_page_key] fails
    with the next-page message once the first three checks pass. *)
Theorem construct_validation_order {V Id} (sv : V -> string) (hv : V -> option Id)
    mi vi ni ii (ps : Z) (ks nk pk : string) (fk lk : option string) (d : V) :
  let r := construct sv hv mi vi ni ii ps ks nk pk fk lk d in
  let nkeys := Z.of_nat (String.length ks) in
  (parse_items sv hv mi vi ni ii = None -> r = inl TypeError) /\
  (forall its, parse_items sv hv mi vi ni ii = Some its ->
  (ps < 2 -> r = inl (ValueError "Page size less than 2")) /\
  (2 <= ps -> nkeys < 2 -> r = inl (ValueError "Less than 2 keys defined")) /\
  (2 <= ps -> 2 <= nkeys -> nkeys < ps ->
     r = inl (ValueError "Not enough keys for the page size")) /\
  (2 <= ps <= nkeys -> str_contains ks nk = true ->
     r = inl (ValueError "Next page key cannot be used as menu key")) /\
  (2 <= ps <= nkeys -> str_contains ks nk = false -> str_contains ks pk = true ->
     r = inl (ValueError "Previous page key cannot be used as menu key")) /\
  (2 <= ps <= nkeys -> str_contains ks nk = false -> str_contains ks pk = false ->
     key_in fk ks = true ->
     r = inl (ValueError "First page key cannot be used as menu key")) /\
  (2 <= ps <= nkeys -> str_contains ks nk = false -> str_contains ks pk = false ->
     key_in fk ks = false -> key_in lk ks = true ->
     r = inl (ValueError "Last page key cannot be used as menu key")) /\
  (2 <= ps <= nkeys -> str_contains ks nk = false -> str_contains ks pk = false ->
     key_in fk ks = false -> key_in lk ks = false -> exists m, r = inr m)).
Proof.
  cbv zeta. unfold construct. split; [intros ->; reflexivity|].
  intros its ->. cbv zeta.
  repeat split; intros;
  repeat match goal with |- context [if ?b then _ else _] => destruct b eqn:? end;
  rewrite ?Z.ltb_lt, ?Z.ltb_ge, ?orb_true_iff, ?orb_false_iff, ?Nat.eqb_eq,
    ?Nat.eqb_neq in *;
  solve [reflexivity | eexists; reflexivity | exfalso; intuition (try lia; try congruence)].
Qed.

(** C6.  An engine returned by [__init__] has [total_pages] equal to
    [ceil(len(items) / page_size)]: the least [t] with
    [len(items) <= t * page_size]; it is 0 for no items; [navigate] never
    changes it after construction; its items are those [parse_items]
    produced. *)
Theorem total_pages_is_ceiling {V Id} (sv : V -> string) (hv : V -> option Id)
    mi vi ni ii (ps : Z) (ks nk pk : string) (fk lk : option string) (d : V)
    (m : PagedMenu V Id) :
  construct sv hv mi vi ni ii ps ks nk pk fk lk d = inr m ->
  let n := Z.of_nat (List.length (items m)) in
  parse_items sv hv mi vi ni ii = Some (items m) /\
  n <= total_pages m * ps /\ (total_pages m - 1) * ps < n /\
  (n = 0 -> total_pages m = 0) /\
  (forall c, total_pages (nav_state (navigate m c)) = total_pages m).
Proof.
  unfold construct. destruct (parse_items sv hv mi vi ni ii) as [its|] eqn:Hits;
    [|discriminate].
  destruct (Z.ltb_spec ps 2); [discriminate|].
  destruct ((String.length ks =? 0)%nat || (Z.of_nat (String.length ks) <? 2));
    [discriminate|].
  destruct (Z.ltb_spec (Z.of_nat (String.length ks)) ps); [discriminate|].
  destruct (str_contains ks nk); [discriminate|].
  destruct (str_contains ks pk); [discriminate|].
  destruct (key_in fk ks); [discriminate|].
  destruct (key_in lk ks); [discriminate|].
  intros Hm. injection Hm as <-. cbv zeta. simpl.
  replace (Z.min ps (Z.of_nat (String.length ks))) with ps by lia.
  set (n := Z.of_nat (List.length its)).
  assert (Hn : 0 <= n) by lia.
  pose proof (Z.div_mod (n + ps - 1) ps ltac:(lia)) as Hdm.
  pose proof (Z.mod_pos_bound (n + ps - 1) ps ltac:(lia)) as Hb.
  split; [reflexivity|]. split; [nia|]. split; [nia|]. split; [nia|].
  intros c. unfold navigate. cbv zeta. nav_split; reflexivity.
Qed.

(** C7, as amended.  For a page [>= 0], [get_page_items] is the slice
    [[page * page_size, page * page_size + page_size)] of the items clipped
    to the list (empty past its end); for every page, also a negative one,
    it returns a list of at most [page_size] items. *)
Theorem get_page_items_bounds {V Id} (m : PagedMenu V Id) (page : Z) :
  0 <= page_size m ->
  (List.length (get_page_items m page) <= Z.to_nat (page_size m))%nat /\
  (0 <= page ->
     get_page_items m page
     = firstn (Z.to_nat (page_size m)) (skipn (Z.to_nat (page * page_size m)) (items m))) /\
  (0 <= page -> Z.of_nat (List.length (items m)) <= page * page_size m ->
     get_page_items m page = []).
Proof.
  intros Hs. unfold get_page_items. cbv zeta.
  split; [now apply py_slice_length|].
  split; intros Hp; rewrite py_slice_nonneg by nia; [reflexivity|].
  intros Hl. rewrite skipn_all2 by lia. apply firstn_nil.
Qed.

(** C8.  [navigate] never writes [status], whether it returns or raises. *)
Theorem navigate_keeps_status {V Id} (m : PagedMenu V Id) (c : string) :
  status (nav_state (navigate m c)) = status m.
Proof. unfold navigate. cbv zeta. nav_split; reflexivity. Qed.

(** C10.  When [navigate] raises on a non-empty command, the engine is
    exactly as before the call. *)
Theorem navigate_raise_atomic {V Id} (m m' : PagedMenu V Id) (c k : string) :
  c <> ""%string -> navigate m c = InvalidMenuKeyError m' k -> m' = m.
Proof.
  intros Hc. unfold navigate. rewrite (proj2 (String.eqb_neq c "") Hc).
  cbv beta iota zeta. nav_split; intros H; try discriminate.
  all: injection H as <- _; reflexivity.
Qed.

(** C5.  When [navigate] raises on the stripped input line, [run] catches
    the error: the offending token is that command, the status becomes
    ["Error: <token> is not a valid menu key."], and the loop goes on with
    the next input line instead of returning. *)
Theorem run_loop_recovers_invalid_key {V Id} (m m' : PagedMenu V Id)
    (line : string) (rest : list string) (k : string) :
  navigate m (strip line) = InvalidMenuKeyError m' k ->
  k = strip line /\
  run_loop m (line :: rest) = run_loop (set_status m' (error_status k)) rest.
Proof.
  intros H. split; [exact (navigate_raise_key _ _ _ _ H)|].
  cbn [run_loop]. cbv zeta. rewrite H. reflexivity.
Qed.

(** C2, as amended.  On a valid engine at a page [p >= 0], take position
    [i] of the active key alphabet whose key does not occur earlier in it
    (always so when the keys are distinct).  If [i] is below the number of
    items on the page, [navigate] on that key selects
    [items[p * page_size + i].value] and sets [selected]; otherwise it
    raises [InvalidMenuKeyError] naming the key. *)
Theorem navigate_select_key_position {V Id} (m : PagedMenu V Id) (i : nat)
    (a : ascii) :
  valid_engine m = true -> 0 <= current_page m ->
  String.get i (keys m) = Some a ->
  (forall j, (j < i)%nat -> String.get j (keys m) <> Some a) ->
  ((i < List.length (get_page_items m (current_page m)))%nat ->
     exists item,
       nth_error (items m) (Z.to_nat (current_page m * page_size m) + i) = Some item /\
       navigate m (String a "") = Returned (set_selection m (value item))) /\
  ((List.length (get_page_items m (current_page m)) <= i)%nat ->
     navigate m (String a "") = InvalidMenuKeyError m (String a "")).
Proof.
  intros Hv Hp Hi Hfirst.
  assert (Hps : 2 <= page_size m).
  { unfold valid_engine in Hv. rewrite !andb_true_iff in Hv.
    destruct Hv as [[[[[[H1 _] _] _] _] _] _]. now apply Z.leb_le. }
  rewrite (navigate_key_branch m (String a "") i Hv ltac:(discriminate) (str_find_char _ _ _ Hi Hfirst)).
  split; intros Hlen.
  - destruct (Z.ltb_spec (Z.of_nat i)
                (Z.of_nat (List.length (get_page_items m (current_page m))))); [|lia].
    destruct (nth_error (get_page_items m (current_page m)) i) as [item|] eqn:E.
    + exists item. split; [|reflexivity].
      rewrite <- E. symmetry. apply get_page_items_nth; auto; lia.
    + apply nth_error_None in E. lia.
  - destruct (Z.ltb_spec (Z.of_nat i)
                (Z.of_nat (List.length (get_page_items m (current_page m))))); [lia|].
    reflexivity.
Qed.

(** C9.  On a valid engine, a token of two or more characters that occurs
    in the active key alphabet is not rejected as such: [navigate] finds
    the first position [i] where it occurs ([str.index]) and, when [i] is
    below the number of items on the current page, selects the item at
    position [i] of the page; otherwise it raises. *)
Theorem navigate_substring_token {V Id} (m : PagedMenu V Id) (t : string) :
  valid_engine m = true -> (2 <= String.length t)%nat ->
  str_contains (keys m) t = true ->
  exists i,
    substring i (String.length t) (keys m) = t /\
    (forall j, (j < i)%nat -> substring j (String.length t) (keys m) <> t) /\
    ((i < List.length (get_page_items m (current_page m)))%nat ->
       exists item,
         nth_error (get_page_items m (current_page m)) i = Some item /\
         navigate m t = Returned (set_selection m (value item))) /\
    ((List.length (get_page_items m (current_page m)) <= i)%nat ->
       navigate m t = InvalidMenuKeyError m t).
Proof.
  intros Hv Ht Hin. unfold str_contains in Hin.
  destruct (str_find (keys m) t) as [i|] eqn:Hf; [|discriminate].
  assert (Hne : t <> ""%string) by (intros ->; simpl in Ht; lia).
  exists i. split; [now apply str_find_occurs|].
  split; [now apply str_find_first|].
  rewrite (navigate_key_branch m t i Hv Hne Hf).
  split; intros Hlen.
  - destruct (Z.ltb_spec (Z.of_nat i)
                (Z.of_nat (List.length (get_page_items m (current_page m))))); [|lia].
    destruct (nth_error (get_page_items m (current_page m)) i) as [item|] eqn:E.
    + exists item. split; reflexivity.
    + apply nth_error_None in E. lia.
  - destruct (Z.ltb_spec (Z.of_nat i)
                (Z.of_nat (List.length (get_page_items m (current_page m))))); [lia|].
    reflexivity.
Qed.

(** ** Witnesses and counterexamples on concrete menus *)

Section Concrete_checks.
Local Open Scope string_scope.

(** C2: with the repeated key alphabet "aa", the key at position 1 on
    page 0 selects the item at position 0 ("A"), not [items[1]] ("B"). *)
Lemma navigate_duplicate_key_first_position :
  valid_engine dup_menu = true /\ current_page dup_menu = 0%Z /\
  String.get 1 (keys dup_menu) = Some "a"%char /\
  map value (items dup_menu) = ["A"; "B"] /\
  navigate dup_menu "a" = Returned (set_selection dup_menu "A").
Proof. vm_compute. repeat split. Qed.

(** C4: [PagedMenu(value_items=[[1]], page_size=1)] raises the
    [TypeError] of [hash([1])] in [parse_items], before any check: not a
    [ValueError] about the page size. *)
Lemma construct_unhashable_value_type_error :
  py_hash (PyList [PyInt 1]) = None /\
  construct py_str py_hash [] [PyList [PyInt 1]] [] [] 1 "ab" "." ","
    (Some "<") (Some ">") (PyInt 0) = inl TypeError.
Proof. split; reflexivity. Qed.

Lemma navigate_select_key_position_witness :
  valid_engine page1 = true /\
  exists item, nth_error (items page1) 3 = Some item /\
    navigate page1 "b" = Returned (set_selection page1 (value item)) /\
    value item = "D".
Proof.
  assert (Hv : valid_engine page1 = true) by (vm_compute; reflexivity).
  split; [exact Hv|].
  destruct (proj1 (navigate_select_key_position page1 1 "b"%char Hv
                     ltac:(apply Z.leb_le; vm_compute; reflexivity)
                     ltac:(vm_compute; reflexivity)
                     ltac:(intros j Hj; destruct j; [vm_compute; discriminate | lia]))
                  ltac:(apply Nat.ltb_lt; vm_compute; reflexivity))
    as [item [H1 H2]].
  exists item. split; [exact H1|]. split; [exact H2|].
  vm_compute in H1. injection H1 as <-. reflexivity.
Defined.

Lemma run_loop_recovers_invalid_key_witness :
  navigate page2 (strip " b ") = InvalidMenuKeyError page2 "b" /\
  run_loop page2 [" b "; "a"] = run_loop (set_status page2 (error_status "b")) ["a"] /\
  run_loop page2 [" b "; "a"] = RunReturned "E".
Proof.
  assert (H : navigate page2 (strip " b ") = InvalidMenuKeyError page2 "b")
    by (vm_compute; reflexivity).
  split; [exact H|]. split.
  - exact (proj2 (run_loop_recovers_invalid_key page2 page2 " b " ["a"] "b" H)).
  - vm_compute. reflexivity.
Defined.

Lemma total_pages_is_ceiling_witness :
  sample_menu ["A"; "B"; "C"; "D"; "E"] 2 "ab" = inr abcde /\
  total_pages abcde = 3%Z /\
  Z.of_nat (List.length (items abcde)) <= total_pages abcde * 2 /\
  (total_pages abcde - 1) * 2 < Z.of_nat (List.length (items abcde)).
Proof.
  assert (H : sample_menu ["A"; "B"; "C"; "D"; "E"] 2 "ab" = inr abcde)
    by (vm_compute; reflexivity).
  split; [exact H|]. split; [vm_compute; reflexivity|].
  destruct (total_pages_is_ceiling (fun s => s) (fun _ => Some 0%Z) [] ["A"; "B"; "C"; "D"; "E"]
              [] [] 2 "ab" "." "," (Some "<") (Some ">") "default" abcde H)
    as [_ [H1 [H2 _]]].
  split; [exact H1 | exact H2].
Defined.

(** C7: the page [-2] of the A..E menu is not empty: Python's slice
    [items[-4:-2]] counts from the end and gives [B, C]. *)
Lemma get_page_items_negative_page :
  valid_engine abcde = true /\
  get_page_items abcde (-2) <> [] /\
  map value (get_page_items abcde (-2)) = ["B"; "C"].
Proof.
  split; [vm_compute; reflexivity|].
  split; [vm_compute; discriminate | vm_compute; reflexivity].
Qed.

Lemma get_page_items_bounds_witness :
  0 <= page_size abcde /\
  map value (get_page_items abcde 2) = ["E"] /\
  (List.length (get_page_items abcde 2) <= Z.to_nat (page_size abcde))%nat.
Proof.
  assert (Hs : 0 <= page_size abcde) by (apply Z.leb_le; vm_compute; reflexivity).
  split; [exact Hs|]. split; [vm_compute; reflexivity|].
  exact (proj1 (get_page_items_bounds abcde 2 Hs)).
Defined.

Lemma navigate_substring_token_witness :
  valid_engine abc_menu = true /\
  str_contains (keys abc_menu) "bc" = true /\
  navigate abc_menu "bc" = Returned (set_selection abc_menu "B").
Proof.
  assert (Hv : valid_engine abc_menu = true) by (vm_compute; reflexivity).
  assert (Hc : str_contains (keys abc_menu) "bc" = true) by (vm_compute; reflexivity).
  split; [exact Hv|]. split; [exact Hc|].
  destruct (navigate_substring_token abc_menu "bc" Hv ltac:(simpl; lia) Hc)
    as [i [Hocc [_ [Hsel _]]]].
  assert (Hi : i = 1%nat).
  { destruct i as [|[|[|[|i]]]]; vm_compute in Hocc;
      try discriminate; reflexivity. }
  subst i.
  destruct (Hsel ltac:(apply Nat.ltb_lt; vm_compute; reflexivity)) as [item [Hitem Hnav]].
  vm_compute in Hitem. injection Hitem as <-. exact Hnav.
Defined.

Lemma navigate_raise_atomic_witness :
  navigate page2 "b" = InvalidMenuKeyError (nav_state (navigate page2 "b")) "b" /\
  nav_state (navigate page2 "b") = page2.
Proof.
  assert (H : navigate page2 "b" = InvalidMenuKeyError (nav_state (navigate page2 "b")) "b")
    by (vm_compute; reflexivity).
  split; [exact H|].
  exact (navigate_raise_atomic page2 _ "b" "b" ltac:(discriminate) H).
Defined.

End Concrete_checks.

(** ** Further properties of the menu *)

Lemma in_firstn_in {A} (n : nat) (l : list A) (x : A) : In x (firstn n l) -> In x l.
Proof. intros H. rewrite <- (firstn_skipn n l). apply in_or_app. now left. Qed.

Lemma in_skipn_in {A} (n : nat) (l : list A) (x : A) : In x (skipn n l) -> In x l.
Proof. intros H. rewrite <- (firstn_skipn n l). apply in_or_app. now right. Qed.

(** Every element of a slice is an element of the list. *)
Lemma py_slice_in {A} (l : list A) (a b : Z) (x : A) : In x (py_slice l a b) -> In x l.
Proof. unfold py_slice. intros H. eapply in_skipn_in, in_firstn_in, H. Qed.

(** After [navigate], [selected_value] is unchanged, [default], or the
    value of one of the items. *)
Lemma navigate_selected_value {V Id} (m : PagedMenu V Id) (c : string) :
  let v := selected_value (nav_state (navigate m c)) in
  v = selected_value m \/ v = default m \/ exists item, In item (items m) /\ value item = v.
Proof.
  cbv zeta. unfold navigate. cbv zeta. nav_split; simpl; auto.
  all: right; right;
    match goal with H : nth_error _ _ = Some ?it |- _ =>
      exists it; split; [eapply py_slice_in, nth_error_In, H | reflexivity] end.
Qed.

(** X1: [navigate] never changes the items, the configuration or
    [total_pages], so it keeps an engine valid. *)
Theorem navigate_keeps_configuration {V Id} (m : PagedMenu V Id) (c : string) :
  let m' := nav_state (navigate m c) in
  items m' = items m /\ page_size m' = page_size m /\ keys m' = keys m /\
  next_page_key m' = next_page_key m /\ previous_page_key m' = previous_page_key m /\
  first_page_key m' = first_page_key m /\ last_page_key m' = last_page_key m /\
  default m' = default m /\ total_pages m' = total_pages m /\
  valid_engine m' = valid_engine m.
Proof. cbv zeta. unfold navigate. cbv zeta. nav_split; repeat split. Qed.

(** X2: whatever input [run] reads, the value it returns is [default] or
    the value of one of the menu's items. *)
Theorem run_returns_default_or_item {V Id} (m : PagedMenu V Id)
    (lines : list string) (v : V) :
  run m lines = RunReturned v ->
  v = default m \/ exists item, In item (items m) /\ value item = v.
Proof.
  unfold run.
  assert (Hinv : forall s, items s = items m -> default s = default m ->
            (selected_value s = default m \/
             exists item, In item (items m) /\ value item = selected_value s) ->
            run_loop s lines = RunReturned v ->
            v = default m \/ exists item, In item (items m) /\ value item = v).
  { induction lines as [|line rest IH]; intros s Hi Hd Hv Hrun; [discriminate|].
    simpl in Hrun.
    pose proof (navigate_keeps_configuration s (strip line)) as Hc.
    pose proof (navigate_selected_value s (strip line)) as Hs.
    cbv zeta in Hc, Hs.
    destruct (navigate s (strip line)) as [s'|s' k]; simpl in Hc, Hs;
      destruct Hc as [Hi' [_ [_ [_ [_ [_ [_ [Hd' _]]]]]]]].
    - assert (Hv' : selected_value s' = default m \/
                    exists item, In item (items m) /\ value item = selected_value s').
      { destruct Hs as [-> | [-> | [it [Hin Hit]]]]; [exact Hv | left; congruence |].
        right. exists it. rewrite <- Hi. auto. }
      destruct (selected s').
      + injection Hrun as <-. exact Hv'.
      + apply (IH s'); auto; congruence.
    - apply (IH (set_status s' (error_status k))); simpl; try congruence.
      destruct Hs as [-> | [-> | [it [Hin Hit]]]]; [exact Hv | left; congruence |].
      right. exists it. rewrite <- Hi. auto. }
  apply Hinv; simpl; auto.
Qed.

(** X3: once [run]'s loop has returned a value, input after the lines it
    read is never consulted. *)
Theorem run_loop_ignores_later_input {V Id} (m : PagedMenu V Id)
    (lines rest : list string) (v : V) :
  run_loop m lines = RunReturned v -> run_loop m (lines ++ rest) = RunReturned v.
Proof.
  revert m; induction lines as [|line ls IH]; intros m H; [discriminate|].
  simpl in *. destruct (navigate m (strip line)) as [s'|s' k].
  - destruct (selected s'); auto.
  - auto.
Qed.

Lemma map_opt_none {A B} (f : A -> option B) (l : list A) :
  map_opt f l = None <-> exists x, In x l /\ f x = None.
Proof.
  induction l as [|a l IH]; simpl.
  - split; [discriminate|]. intros [x [[] _]].
  - destruct (f a) eqn:E.
    + destruct (map_opt f l) eqn:E2.
      * split; [discriminate|]. intros [x [[<-|Hin] Hx]]; [congruence|].
        assert (Hn : Some l0 = None) by (apply IH; eauto).
        discriminate.
      * split; [intros _|reflexivity].
        destruct (proj1 IH eq_refl) as [x [Hx Hfx]]. exists x. auto.
    + split; [intros _|reflexivity]. exists a. auto.
Qed.

Lemma map_opt_map {A B C} (f : A -> option B) (g : B -> C) (h : A -> C)
    (l : list A) (ys : list B) :
  (forall x y, f x = Some y -> g y = h x) -> map_opt f l = Some ys -> map g ys = map h l.
Proof.
  intros Hfg. revert ys; induction l as [|a l IH]; intros ys; simpl.
  - now intros [= <-].
  - destruct (f a) eqn:E; [|discriminate].
    destruct (map_opt f l) eqn:E2; [|discriminate].
    intros [= <-]. simpl. rewrite (Hfg _ _ E). f_equal. now apply IH.
Qed.

Lemma make_item_none {V Id} (sv : V -> string) (hv : V -> option Id) v n i :
  make_item sv hv v n i = None <-> i = None /\ hv v = None.
Proof.
  unfold make_item. destruct i as [x|].
  - split; [discriminate|]. now intros [? _].
  - destruct (hv v); split; try discriminate; intuition congruence.
Qed.

Lemma make_item_value {V Id} (sv : V -> string) (hv : V -> option Id) v n i it :
  make_item sv hv v n i = Some it -> value it = v.
Proof.
  unfold make_item. destruct i; [now intros [= <-]|].
  destruct (hv v); [now intros [= <-]|discriminate].
Qed.

(** X4: [parse_items] raises [TypeError] exactly when some bare value,
    some [(name, value)] pair, or some triple whose id is [None] has an
    unhashable value: raw [MenuItem]s and triples with an id are never
    hashed.  When it succeeds, the values of the items are those of the raw
    items, then the bare values, then those of the pairs, then those of the
    triples, in order, none dropped or merged. *)
Theorem parse_items_type_error {V Id} (sv : V -> string) (hv : V -> option Id)
    (mi : list (MenuItem V Id)) (vi : list V) (ni : list (option string * V))
    (ii : list (V * option string * option Id)) :
  (parse_items sv hv mi vi ni ii = None <->
     (exists v, In v vi /\ hv v = None) \/
     (exists n v, In (n, v) ni /\ hv v = None) \/
     (exists v n, In (v, n, None) ii /\ hv v = None)) /\
  (forall its, parse_items sv hv mi vi ni ii = Some its ->
     map value its = map value mi ++ vi ++ map snd ni ++ map (fun '(v, _, _) => v) ii).
Proof.
  assert (HV : map_opt (fun v => make_item sv hv v None None) vi = None <->
               exists v, In v vi /\ hv v = None).
  { rewrite map_opt_none. split; intros [v [Hin Hv]]; exists v;
      rewrite make_item_none in *; intuition. }
  assert (HN : map_opt (fun '(n, v) => make_item sv hv v n None) ni = None <->
               exists n v, In (n, v) ni /\ hv v = None).
  { rewrite map_opt_none. split.
    - intros [[n v] [Hin Hv]]. apply make_item_none in Hv. exists n, v. intuition.
    - intros [n [v [Hin Hv]]]. exists (n, v). split; [exact Hin|].
      now apply make_item_none. }
  assert (HI : map_opt (fun '(v, n, i) => make_item sv hv v n i) ii = None <->
               exists v n, In (v, n, None) ii /\ hv v = None).
  { rewrite map_opt_none. split.
    - intros [[[v n] i] [Hin Hv]]. apply make_item_none in Hv as [-> Hv].
      exists v, n. intuition.
    - intros [v [n [Hin Hv]]]. exists (v, n, None). split; [exact Hin|].
      now apply make_item_none. }
  unfold parse_items. split.
  - rewrite <- HV, <- HN, <- HI.
    destruct (map_opt _ vi); [|intuition].
    destruct (map_opt _ ni); [|intuition].
    destruct (map_opt _ ii); intuition discriminate.
  - intros its.
    destruct (map_opt _ vi) as [vs|] eqn:E1; [|discriminate].
    destruct (map_opt _ ni) as [ns|] eqn:E2; [|discriminate].
    destruct (map_opt _ ii) as [is_|] eqn:E3; [|discriminate].
    intros [= <-]. rewrite !map_app. f_equal.
    rewrite (map_opt_map (fun v => make_item sv hv v None None) value (fun v => v) vi vs),
      map_id;
      [| intros x y; apply make_item_value | exact E1].
    f_equal.
    rewrite (map_opt_map (fun '(n, v) => make_item sv hv v n None) value snd ni ns);
      [| intros [n v] y; apply make_item_value | exact E2].
    f_equal.
    apply (map_opt_map (fun '(v, n, i) => make_item sv hv v n i) value
             (fun '(v, _, _) => v) ii is_);
      [intros [[v n] i] y; apply make_item_value | exact E3].
Qed.

Lemma valid_engine_spec {V Id} (m : PagedMenu V Id) :
  valid_engine m = true ->
  2 <= page_size m /\ Z.of_nat (String.length (keys m)) = page_size m /\
  str_contains (keys m) (next_page_key m) = false /\
  str_contains (keys m) (previous_page_key m) = false /\
  key_in (first_page_key m) (keys m) = false /\
  key_in (last_page_key m) (keys m) = false /\
  total_pages m = (Z.of_nat (List.length (items m)) + page_size m - 1) / page_size m.
Proof.
  unfold valid_engine. rewrite !andb_true_iff, !negb_true_iff, Z.leb_le, !Z.eqb_eq.
  tauto.
Qed.

(** [total_pages] of a valid engine is the ceiling of
    [len(items) / page_size]. *)
Lemma valid_total_pages_bounds {V Id} (m : PagedMenu V Id) :
  valid_engine m = true ->
  0 <= total_pages m /\
  Z.of_nat (List.length (items m)) <= total_pages m * page_size m /\
  (total_pages m - 1) * page_size m < Z.of_nat (List.length (items m)).
Proof.
  intros Hv. destruct (valid_engine_spec m Hv) as [Hps [_ [_ [_ [_ [_ Ht]]]]]].
  rewrite Ht. set (n := Z.of_nat (List.length (items m))).
  assert (0 <= n) by lia.
  pose proof (Z.div_mod (n + page_size m - 1) (page_size m) ltac:(lia)).
  pose proof (Z.mod_pos_bound (n + page_size m - 1) (page_size m) ltac:(lia)).
  split; [apply Z.div_pos; lia|]. split; nia.
Qed.

(** The empty string is in every string. *)
Lemma str_contains_empty (h : string) : str_contains h "" = true.
Proof. unfold str_contains. destruct h; reflexivity. Qed.

Lemma firstn_add {A} (a b : nat) (l : list A) :
  firstn (a + b) l = firstn a l ++ firstn b (skipn a l).
Proof.
  revert l; induction a as [|a IH]; intros [|x l]; simpl; auto.
  - now rewrite firstn_nil.
  - f_equal. apply IH.
Qed.

Lemma concat_pages {A} (l : list A) (k n : nat) :
  List.concat (map (fun p => firstn k (skipn (p * k) l)) (seq 0 n)) = firstn (n * k) l.
Proof.
  induction n as [|n IH]; [reflexivity|].
  rewrite seq_S, map_app, List.concat_app, IH. simpl. rewrite app_nil_r.
  rewrite <- firstn_add. f_equal. lia.
Qed.

(** On a page [>= 0], [get_page_items] is a [firstn] of a [skipn]. *)
Lemma get_page_items_nat {V Id} (m : PagedMenu V Id) (p : nat) :
  0 <= page_size m ->
  get_page_items m (Z.of_nat p)
  = firstn (Z.to_nat (page_size m)) (skipn (p * Z.to_nat (page_size m)) (items m)).
Proof.
  intros Hs. unfold get_page_items. cbv zeta.
  rewrite py_slice_nonneg by lia. rewrite Z2Nat.inj_mul, Nat2Z.id by lia.
  reflexivity.
Qed.

(** X5: on a valid engine, the pages [0 .. total_pages - 1] in order
    contain exactly the items: every item is shown on one page, none twice,
    in order. *)
Theorem pages_partition_items {V Id} (m : PagedMenu V Id) :
  valid_engine m = true ->
  List.concat (map (fun p => get_page_items m (Z.of_nat p)) (seq 0 (Z.to_nat (total_pages m))))
  = items m.
Proof.
  intros Hv. destruct (valid_engine_spec m Hv) as [Hps _].
  destruct (valid_total_pages_bounds m Hv) as [Ht0 [Hup _]].
  rewrite (map_ext _ _ (fun p => get_page_items_nat m p ltac:(lia))).
  rewrite concat_pages. apply firstn_all2.
  rewrite <- Z2Nat.inj_mul by lia. lia.
Qed.

(** X6: on a valid engine, every page in [[0, total_pages - 1]] shows at
    least one item; every page before the last is full ([page_size]
    items) and the last shows the remaining items. *)
Theorem page_lengths {V Id} (m : PagedMenu V Id) (p : Z) :
  valid_engine m = true -> 0 <= p < total_pages m ->
  (0 < List.length (get_page_items m p))%nat /\
  (p < total_pages m - 1 ->
     List.length (get_page_items m p) = Z.to_nat (page_size m)) /\
  (p = total_pages m - 1 ->
     Z.of_nat (List.length (get_page_items m p))
     = Z.of_nat (List.length (items m)) - (total_pages m - 1) * page_size m).
Proof.
  intros Hv Hp. destruct (valid_engine_spec m Hv) as [Hps _].
  destruct (valid_total_pages_bounds m Hv) as [Ht0 [Hup Hlo]].
  unfold get_page_items. cbv zeta. rewrite py_slice_nonneg by lia.
  rewrite length_firstn, length_skipn.
  set (n := List.length (items m)) in *.
  assert (Hp1 : p * page_size m <= (total_pages m - 1) * page_size m) by nia.
  assert (Hnn : 0 <= p * page_size m) by nia.
  split; [lia|]. split; intros Hq.
  - assert ((p + 1) * page_size m <= (total_pages m - 1) * page_size m) by nia. lia.
  - subst p. lia.
Qed.

(** ** Navigation keys *)

(** No enabled optional key matches the empty command. *)
Lemma matches_key_empty (k : option string) : matches_key "" k = false.
Proof.
  destruct k as [[|c f]|]; reflexivity.
Qed.

(** On a valid engine the next and previous page keys are not empty. *)
Lemma valid_nav_keys_nonempty {V Id} (m : PagedMenu V Id) :
  valid_engine m = true ->
  next_page_key m <> ""%string /\ previous_page_key m <> ""%string.
Proof.
  intros Hv. destruct (valid_engine_spec m Hv) as [_ [_ [Hn [Hp _]]]].
  split; intros E; [rewrite E in Hn | rewrite E in Hp];
    rewrite str_contains_empty in *; discriminate.
Qed.

Lemma set_current_page_same {V Id} (m : PagedMenu V Id) (p : Z) :
  p = current_page m -> set_current_page m p = m.
Proof. intros ->. destruct m. reflexivity. Qed.

Lemma set_current_page_twice {V Id} (m : PagedMenu V Id) (p q : Z) :
  set_current_page (set_current_page m p) q = set_current_page m q.
Proof. reflexivity. Qed.

(** X7: an enabled first-page key that differs from the next and previous
    page keys moves to page 0 from any page and changes nothing else. *)
Theorem first_page_key_lands_on_page_zero {V Id} (m : PagedMenu V Id) (f : string) :
  first_page_key m = Some f -> f <> ""%string ->
  f <> next_page_key m -> f <> previous_page_key m ->
  navigate m f = Returned (set_current_page m 0).
Proof.
  intros Hf Hne Hn Hp. unfold navigate.
  rewrite (proj2 (String.eqb_neq f "") Hne). cbv beta iota zeta.
  rewrite (proj2 (String.eqb_neq _ _) Hn), (proj2 (String.eqb_neq _ _) Hp), Hf.
  simpl. rewrite String.eqb_refl, (proj2 (String.eqb_neq f "") Hne). reflexivity.
Qed.

(** X8: an enabled last-page key that differs from the next, previous and
    first page keys moves to page [total_pages - 1] and changes nothing
    else. *)
Theorem last_page_key_lands_on_last_page {V Id} (m : PagedMenu V Id) (l : string) :
  last_page_key m = Some l -> l <> ""%string ->
  l <> next_page_key m -> l <> previous_page_key m -> first_page_key m <> Some l ->
  navigate m l = Returned (set_current_page m (total_pages m - 1)).
Proof.
  intros Hl Hne Hn Hp Hf. unfold navigate.
  rewrite (proj2 (String.eqb_neq l "") Hne). cbv beta iota zeta.
  rewrite (proj2 (String.eqb_neq _ _) Hn), (proj2 (String.eqb_neq _ _) Hp).
  assert (Hm : matches_key l (first_page_key m) = false).
  { destruct (first_page_key m) as [f|]; simpl; [|reflexivity].
    destruct (String.eqb_spec l f) as [->|]; [congruence|reflexivity]. }
  rewrite Hm, Hl. simpl. rewrite String.eqb_refl, (proj2 (String.eqb_neq l "") Hne).
  reflexivity.
Qed.

(** X9: with distinct next and previous keys on a valid engine, going to
    the next page and back, or to the previous page and back, restores the
    engine exactly, whenever the first move is not at a boundary. *)
Theorem next_previous_round_trip {V Id} (m : PagedMenu V Id) :
  valid_engine m = true -> next_page_key m <> previous_page_key m ->
  (0 <= current_page m < total_pages m - 1 ->
     navigate m (next_page_key m) = Returned (set_current_page m (current_page m + 1)) /\
     navigate (set_current_page m (current_page m + 1)) (previous_page_key m)
     = Returned m) /\
  (0 < current_page m <= total_pages m - 1 ->
     navigate m (previous_page_key m) = Returned (set_current_page m (current_page m - 1)) /\
     navigate (set_current_page m (current_page m - 1)) (next_page_key m)
     = Returned m).
Proof.
  intros Hv Hnp. destruct (valid_nav_keys_nonempty m Hv) as [Hn Hp].
  assert (Hpn : previous_page_key m <> next_page_key m) by congruence.
  split; intros Hr; split; unfold navigate; simpl;
    rewrite ?(proj2 (String.eqb_neq _ "") Hn), ?(proj2 (String.eqb_neq _ "") Hp);
    cbv beta iota zeta; simpl;
    rewrite ?String.eqb_refl, ?(proj2 (String.eqb_neq _ _) Hpn);
    try rewrite String.eqb_refl;
    match goal with |- context [if ?a <? ?b then _ else _] =>
      destruct (Z.ltb_spec a b); [|lia] end;
    f_equal; try reflexivity; rewrite set_current_page_twice;
    apply set_current_page_same; simpl; lia.
Qed.

(** ** Rendering *)

Lemma string_get_lt (i : nat) (s : string) :
  (i < String.length s)%nat -> exists c, String.get i s = Some c.
Proof.
  revert i; induction s as [|c s IH]; intros [|i] Hi; simpl in *; try lia.
  - now exists c.
  - apply IH. lia.
Qed.

Lemma string_app_assoc (a b c : string) : (a ++ (b ++ c) = (a ++ b) ++ c)%string.
Proof. induction a as [|x a IH]; simpl; [reflexivity|now rewrite IH]. Qed.

Lemma string_concat_snoc (sep : string) (l : list string) (x : string) :
  l <> [] -> String.concat sep (l ++ [x]) = (String.concat sep l ++ sep ++ x)%string.
Proof.
  intros Hl. induction l as [|a [|b l] IH]; [congruence|reflexivity|].
  specialize (IH ltac:(discriminate)). simpl app in *.
  change (String.concat sep (a :: b :: l ++ [x]))
    with (String.append a (String.append sep (String.concat sep (b :: l ++ [x])))).
  rewrite IH. simpl. now rewrite !string_app_assoc.
Qed.

(** The item lines of a run of items starting at key position [s]: one
    line per item, each showing the key at its position. *)
Lemma item_lines_spec {V Id} (sv : V -> string) (m : PagedMenu V Id)
    (s : nat) (its : list (MenuItem V Id)) :
  (s + List.length its <= String.length (keys m))%nat ->
  exists ls, item_lines sv m s its = Some ls /\ List.length ls = List.length its /\
    forall i item, nth_error its i = Some item ->
      exists k, String.get (s + i) (keys m) = Some k /\
        nth_error ls i = Some (String k "" ++ ": " ++ name item ++ " ("
                               ++ sv (value item) ++ ")")%string.
Proof.
  revert s; induction its as [|it its IH]; intros s Hs.
  - exists []. split; [reflexivity|]. split; [reflexivity|].
    intros [|i] item H; discriminate.
  - simpl in Hs. destruct (string_get_lt s (keys m)) as [k Hk]; [lia|].
    destruct (IH (S s)) as [ls [Hls [Hlen Hnth]]]; [lia|].
    exists ((String k "" ++ ": " ++ name it ++ " (" ++ sv (value it) ++ ")")%string :: ls).
    split; [simpl; unfold item_line; now rewrite Hk, Hls|].
    split; [simpl; now rewrite Hlen|].
    intros [|i] item H; simpl in H.
    + injection H as <-. exists k. rewrite Nat.add_0_r. now split.
    + destruct (Hnth i item H) as [k' [Hk' Hl']]. exists k'.
      rewrite <- Nat.add_succ_comm. now split.
Qed.

(** On a valid engine a page never has more items than there are keys. *)
Lemma page_fits_keys {V Id} (m : PagedMenu V Id) (p : Z) :
  valid_engine m = true ->
  (List.length (get_page_items m p) <= String.length (keys m))%nat.
Proof.
  intros Hv. destruct (valid_engine_spec m Hv) as [Hps [Hk _]].
  unfold get_page_items. cbv zeta.
  pose proof (py_slice_length (items m) (p * page_size m) (page_size m)) as H.
  lia.
Qed.

Lemma valid_engine_set_status {V Id} (m : PagedMenu V Id) (s : string) :
  valid_engine (set_status m s) = valid_engine m.
Proof. destruct m. reflexivity. Qed.

Lemma valid_engine_reset_selection {V Id} (m : PagedMenu V Id) :
  valid_engine (reset_selection m) = valid_engine m.
Proof. destruct m. reflexivity. Qed.

(** X10: on a valid engine [display_page] never raises, whatever the page
    number and the status. *)
Theorem display_page_never_raises {V Id} (sv : V -> string) (m : PagedMenu V Id)
    (p : Z) :
  valid_engine m = true -> exists out, display_page sv m p = Some out.
Proof.
  intros Hv. unfold display_page. cbv zeta.
  destruct (get_page_items m p) as [|it its] eqn:E; [eexists; reflexivity|].
  destruct (item_lines_spec sv m 0 (it :: its)) as [ls [Hls _]].
  { rewrite <- E. apply page_fits_keys, Hv. }
  rewrite Hls. eexists. reflexivity.
Qed.

(** X11: a page at or past [total_pages] is rendered as the fixed text
    "No items to display.", whatever the status: a pending error message
    is not shown there. *)
Theorem display_page_past_end_hides_status {V Id} (sv : V -> string)
    (m : PagedMenu V Id) (p : Z) (s : string) :
  valid_engine m = true -> total_pages m <= p ->
  display_page sv (set_status m s) p = Some "No items to display."%string.
Proof.
  intros Hv Hp. destruct (valid_engine_spec m Hv) as [Hps _].
  destruct (valid_total_pages_bounds m Hv) as [Ht [Hn _]].
  unfold display_page. cbv zeta.
  replace (get_page_items (set_status m s) p) with (@nil (MenuItem V Id));
    [reflexivity|].
  unfold get_page_items. simpl. cbv zeta.
  rewrite py_slice_nonneg by nia. rewrite skipn_all2; [now rewrite firstn_nil|].
  nia.
Qed.

(** X12: a rendered non-empty page ends with the status line when the
    status is set, and with the "page/total" line otherwise. *)
Theorem display_page_last_line {V Id} (sv : V -> string) (m : PagedMenu V Id)
    (p : Z) (out : string) :
  get_page_items m p <> [] -> display_page sv m p = Some out ->
  (status m <> ""%string -> exists pre, out = (pre ++ newline ++ status m)%string) /\
  (status m = ""%string -> exists pre,
     out = (pre ++ newline ++ py_str_int (p + 1) ++ "/"
            ++ py_str_int (total_pages m))%string).
Proof.
  intros Hne Hd. unfold display_page in Hd. cbv zeta in Hd.
  destruct (get_page_items m p) as [|it its]; [congruence|].
  destruct (item_lines sv m 0 (it :: its)) as [ls|]; [|discriminate].
  injection Hd as <-. split; intros Hs.
  - rewrite (proj2 (String.eqb_neq _ _) Hs). cbv iota. eexists.
    match goal with |- String.concat _ (ls ++ [?a; ?b; ?c]) = _ =>
      replace (ls ++ [a; b; c]) with ((ls ++ [a; b]) ++ [c])
        by (now rewrite <- app_assoc) end.
    apply string_concat_snoc. intros H. apply app_eq_nil in H as [_ H].
    discriminate.
  - rewrite Hs. simpl String.eqb. cbv iota. eexists.
    match goal with |- String.concat _ (ls ++ [?a; ?b]) = _ =>
      replace (ls ++ [a; b]) with ((ls ++ [a]) ++ [b])
        by (now rewrite <- app_assoc) end.
    apply string_concat_snoc. intros H. apply app_eq_nil in H as [_ H].
    discriminate.
Qed.

(** X13: on a valid engine with a page [>= 0] shown, the key printed on the
    line of an item, when it is the first occurrence of that character in
    the key alphabet, selects that item: [navigate] on it selects the
    item's value, and [run] returns it when the input line strips to that
    key. *)
Theorem displayed_key_selects_displayed_item {V Id} (sv : V -> string)
    (m : PagedMenu V Id) (i : nat) (item : MenuItem V Id) :
  valid_engine m = true -> 0 <= current_page m ->
  nth_error (get_page_items m (current_page m)) i = Some item ->
  (forall j, (j < i)%nat -> String.get j (keys m) <> String.get i (keys m)) ->
  exists k ls rest,
    display_page sv m (current_page m) = Some (String.concat newline (ls ++ rest)) /\
    nth_error ls i = Some (String k "" ++ ": " ++ name item ++ " ("
                           ++ sv (value item) ++ ")")%string /\
    navigate m (String k "") = Returned (set_selection m (value item)) /\
    (forall line lines, strip line = String k "" ->
       run m (line :: lines) = RunReturned (value item)).
Proof.
  intros Hv Hp Hi Hfirst.
  assert (Hlt : (i < List.length (get_page_items m (current_page m)))%nat)
    by (apply nth_error_Some; congruence).
  assert (Hnav : forall m', valid_engine m' = true -> current_page m' = current_page m ->
            items m' = items m -> page_size m' = page_size m -> keys m' = keys m ->
            forall k, String.get i (keys m) = Some k ->
            navigate m' (String k "") = Returned (set_selection m' (value item))).
  { intros m' Hv' Hc Hit Hps Hk k Hgk.
    assert (Hg : get_page_items m' (current_page m') = get_page_items m (current_page m))
      by (unfold get_page_items; now rewrite Hc, Hit, Hps).
    rewrite (navigate_key_branch m' (String k "") i Hv' ltac:(discriminate)).
    - rewrite Hg, Hi. destruct (Z.ltb_spec (Z.of_nat i)
        (Z.of_nat (List.length (get_page_items m (current_page m))))); [reflexivity|lia].
    - rewrite Hk. apply str_find_char; [exact Hgk|].
      intros j Hj. rewrite <- Hgk. now apply Hfirst. }
  unfold display_page. cbv zeta.
  destruct (item_lines_spec sv m 0 (get_page_items m (current_page m)))
    as [ls [Hls [_ Hnth]]]; [apply page_fits_keys, Hv|].
  destruct (Hnth i item Hi) as [k [Hk Hl]]. simpl in Hk.
  exists k, ls.
  destruct (get_page_items m (current_page m)) as [|it its] eqn:E;
    [destruct i; discriminate|].
  rewrite Hls. eexists. split; [reflexivity|]. split; [exact Hl|]. split.
  - apply Hnav; auto.
  - intros line lines Hline. unfold run. simpl. rewrite Hline.
    rewrite (Hnav (reset_selection m));
      rewrite ?valid_engine_reset_selection; auto.
Qed.

(** [run]'s loop only sees each input line through [strip]. *)
Lemma run_loop_stripped {V Id} (m : PagedMenu V Id) (lines lines' : list string) :
  Forall2 (fun a b => strip a = strip b) lines lines' ->
  run_loop m lines = run_loop m lines'.
Proof.
  intros H. revert m; induction H as [|a b l l' Hab _ IH]; intros m; [reflexivity|].
  simpl. rewrite Hab. destruct (navigate m (strip b)) as [m'|m' k].
  - destruct (selected m'); [reflexivity|apply IH].
  - apply IH.
Qed.

(** X14: [run] reads every line through [strip]: input lines that strip
    to the same commands give the same outcome.  In particular a key of
    the alphabet that is a whitespace character can never be entered:
    typing it is the same as submitting an empty line. *)
Theorem run_whitespace_key_is_empty_line {V Id} (m : PagedMenu V Id) (k : ascii)
    (rest : list string) :
  is_space k = true ->
  (forall lines lines', Forall2 (fun a b => strip a = strip b) lines lines' ->
     run m lines = run m lines') /\
  run m (String k "" :: rest) = run m (""%string :: rest).
Proof.
  intros Hk.
  assert (Hall : forall lines lines', Forall2 (fun a b => strip a = strip b) lines lines' ->
                   run m lines = run m lines')
    by (intros lines lines' H; apply run_loop_stripped, H).
  split; [exact Hall|]. apply Hall. constructor.
  - unfold strip. simpl. now rewrite Hk.
  - clear. induction rest; constructor; auto.
Qed.

(** ** Construction results *)

(** X15: a successful construction keeps the requested page size (the
    [min(page_size, len(keys))] never lowers it, since fewer keys than the
    page size are rejected before) and keeps exactly the first
    [page_size] keys; the engine starts on page 0 with an empty status. *)
Theorem construct_keeps_page_size {V Id} sv hv mi vi ni ii ps ks nk pk fk lk (d : V)
    (m : PagedMenu V Id) :
  construct sv hv mi vi ni ii ps ks nk pk fk lk d = inr m ->
  page_size m = ps /\ String.length (keys m) = Z.to_nat ps /\
  String.prefix (keys m) ks = true /\ current_page m = 0 /\ status m = ""%string.
Proof.
  unfold construct. destruct (parse_items sv hv mi vi ni ii) as [its|]; [|discriminate].
  destruct (Z.ltb_spec ps 2); [discriminate|].
  destruct ((String.length ks =? 0)%nat || (Z.of_nat (String.length ks) <? 2));
    [discriminate|].
  destruct (Z.ltb_spec (Z.of_nat (String.length ks)) ps); [discriminate|].
  destruct (str_contains ks nk); [discriminate|].
  destruct (str_contains ks pk); [discriminate|].
  destruct (key_in fk ks); [discriminate|].
  destruct (key_in lk ks); [discriminate|].
  intros Hm. injection Hm as <-. simpl.
  replace (Z.min ps (Z.of_nat (String.length ks))) with ps by lia.
  assert (Hl : String.length (substring 0 (Z.to_nat ps) ks) = Z.to_nat ps)
    by (apply substring_prefix_length; lia).
  repeat split; auto.
  apply prefix_correct. now rewrite Hl.
Qed.

(** X16: once the items are parsed (no unhashable value), an empty next
    or previous page key is always rejected ([''] is [in] every string), so
    construction raises [ValueError] and never returns an engine. *)
Theorem construct_rejects_empty_nav_key {V Id} sv hv mi vi ni ii ps ks nk pk fk lk
    (d : V) :
  @parse_items V Id sv hv mi vi ni ii <> None ->
  (nk = ""%string \/ pk = ""%string) ->
  exists msg, @construct V Id sv hv mi vi ni ii ps ks nk pk fk lk d = inl (ValueError msg).
Proof.
  intros Hp Hk. unfold construct.
  destruct (parse_items sv hv mi vi ni ii) as [its|]; [|congruence].
  destruct (ps <? 2); [eexists; reflexivity|].
  destruct ((String.length ks =? 0)%nat || (Z.of_nat (String.length ks) <? 2));
    [eexists; reflexivity|].
  destruct (Z.of_nat (String.length ks) <? ps); [eexists; reflexivity|].
  destruct (str_contains ks nk) eqn:E2; [eexists; reflexivity|].
  destruct (str_contains ks pk) eqn:E3; [eexists; reflexivity|].
  exfalso. destruct Hk as [->| ->]; rewrite str_contains_empty in *; discriminate.
Qed.

(** ** The status is only shown *)

Lemma navigate_set_status {V Id} (m : PagedMenu V Id) (s c : string) :
  navigate (set_status m s) c =
  match navigate m c with
  | Returned m' => Returned (set_status m' s)
  | InvalidMenuKeyError m' k => InvalidMenuKeyError (set_status m' s) k
  end.
Proof.
  destruct m. cbv [navigate get_page_items set_status set_selection set_current_page
    items page_size keys next_page_key previous_page_key first_page_key
    last_page_key default total_pages current_page status selected selected_value].
  nav_split; first [reflexivity | congruence].
Qed.

Lemma run_loop_set_status {V Id} (m : PagedMenu V Id) (s : string) (lines : list string) :
  run_loop (set_status m s) lines = run_loop m lines.
Proof.
  revert m; induction lines as [|line rest IH]; intros m; [reflexivity|].
  simpl. rewrite navigate_set_status.
  destruct (navigate m (strip line)) as [m'|m' k]; simpl.
  - destruct (selected m'); [reflexivity|apply IH].
  - reflexivity.
Qed.

(** X17: the status text never influences what [run] returns: starting
    from any status, [run] reads the same lines to the same outcome. *)
Theorem run_ignores_status {V Id} (m : PagedMenu V Id) (s : string) (lines : list string) :
  run (set_status m s) lines = run m lines.
Proof.
  unfold run. change (reset_selection (set_status m s)) with (set_status (reset_selection m) s).
  apply run_loop_set_status.
Qed.

(** ** Instances of the further properties *)

Section Further_checks.
Local Open Scope string_scope.

Lemma run_returns_default_or_item_witness :
  run abcde [""; "b"] = RunReturned "A" /\
  ("A" = default abcde \/ exists item, In item (items abcde) /\ value item = "A").
Proof.
  assert (H : run abcde [""; "b"] = RunReturned "A") by (vm_compute; reflexivity).
  split; [exact H|]. exact (run_returns_default_or_item abcde [""; "b"] "A" H).
Defined.

Lemma run_loop_ignores_later_input_witness :
  run_loop abcde ["."; "b"] = RunReturned "D" /\
  run_loop abcde (["."; "b"] ++ ["zz"; "a"]) = RunReturned "D".
Proof.
  assert (H : run_loop abcde ["."; "b"] = RunReturned "D") by (vm_compute; reflexivity).
  split; [exact H|]. exact (run_loop_ignores_later_input abcde ["."; "b"] ["zz"; "a"] "D" H).
Defined.

Lemma pages_partition_items_witness :
  valid_engine abcde = true /\
  List.concat (map (fun p => get_page_items abcde (Z.of_nat p))
                 (seq 0 (Z.to_nat (total_pages abcde)))) = items abcde.
Proof.
  assert (Hv : valid_engine abcde = true) by (vm_compute; reflexivity).
  split; [exact Hv|]. exact (pages_partition_items abcde Hv).
Defined.

Lemma page_lengths_witness :
  valid_engine abcde = true /\ (0 <= 2 < total_pages abcde)%Z /\
  Z.of_nat (List.length (get_page_items abcde 2))
  = (Z.of_nat (List.length (items abcde)) - (total_pages abcde - 1) * page_size abcde)%Z.
Proof.
  assert (Hv : valid_engine abcde = true) by (vm_compute; reflexivity).
  assert (Hp : (0 <= 2 < total_pages abcde)%Z) by (split; [lia | vm_compute; reflexivity]).
  split; [exact Hv|]. split; [exact Hp|].
  apply (page_lengths abcde 2 Hv Hp). vm_compute. reflexivity.
Defined.

Lemma first_page_key_lands_on_page_zero_witness :
  first_page_key page2 = Some "<" /\
  navigate page2 "<" = Returned (set_current_page page2 0).
Proof.
  assert (Hf : first_page_key page2 = Some "<") by (vm_compute; reflexivity).
  split; [exact Hf|].
  exact (first_page_key_lands_on_page_zero page2 "<" Hf ltac:(discriminate)
           ltac:(vm_compute; discriminate) ltac:(vm_compute; discriminate)).
Defined.

Lemma last_page_key_lands_on_last_page_witness :
  last_page_key abcde = Some ">" /\
  navigate abcde ">" = Returned (set_current_page abcde (total_pages abcde - 1)) /\
  (total_pages abcde - 1 = 2)%Z.
Proof.
  assert (Hl : last_page_key abcde = Some ">") by (vm_compute; reflexivity).
  split; [exact Hl|]. split; [|vm_compute; reflexivity].
  exact (last_page_key_lands_on_last_page abcde ">" Hl ltac:(discriminate)
           ltac:(vm_compute; discriminate) ltac:(vm_compute; discriminate)
           ltac:(vm_compute; discriminate)).
Defined.

Lemma next_previous_round_trip_witness :
  valid_engine page1 = true /\
  navigate (set_current_page page1 (current_page page1 + 1)) (previous_page_key page1)
  = Returned page1.
Proof.
  assert (Hv : valid_engine page1 = true) by (vm_compute; reflexivity).
  split; [exact Hv|].
  apply (proj1 (next_previous_round_trip page1 Hv ltac:(vm_compute; discriminate))).
  split; [vm_compute; discriminate | vm_compute; reflexivity].
Defined.

Lemma display_page_never_raises_witness :
  valid_engine abc_menu = true /\
  (exists out, display_page (fun s => s) abc_menu 1 = Some out) /\
  (exists out, display_page (fun s => s) abc_menu 5 = Some out).
Proof.
  assert (Hv : valid_engine abc_menu = true) by (vm_compute; reflexivity).
  split; [exact Hv|].
  split; [exact (display_page_never_raises (fun s => s) abc_menu 1 Hv)
         | exact (display_page_never_raises (fun s => s) abc_menu 5 Hv)].
Defined.

Lemma display_page_past_end_hides_status_witness :
  valid_engine abcde = true /\ (total_pages abcde <= 3)%Z /\
  display_page (fun s => s) (set_status abcde "Error: z is not a valid menu key.") 3
  = Some "No items to display.".
Proof.
  assert (Hv : valid_engine abcde = true) by (vm_compute; reflexivity).
  assert (Hp : (total_pages abcde <= 3)%Z) by (vm_compute; discriminate).
  split; [exact Hv|]. split; [exact Hp|].
  exact (display_page_past_end_hides_status (fun s => s) abcde 3 _ Hv Hp).
Defined.

Lemma display_page_last_line_witness :
  exists out,
    get_page_items (set_status page1 "Err") 1 <> [] /\
    display_page (fun s => s) (set_status page1 "Err") 1 = Some out /\
    exists pre, out = pre ++ newline ++ "Err".
Proof.
  eexists. split; [vm_compute; discriminate|].
  assert (Hd : display_page (fun s => s) (set_status page1 "Err") 1
               = Some (String.concat newline
                         ["a: C (C)"; "b: D (D)"; "<: First ,: Previous .: Next >: Last";
                          "2/3"; "Err"])) by (vm_compute; reflexivity).
  split; [exact Hd|].
  exact (proj1 (display_page_last_line (fun s => s) (set_status page1 "Err") 1 _
                  ltac:(vm_compute; discriminate) Hd) ltac:(vm_compute; discriminate)).
Defined.

Lemma displayed_key_selects_displayed_item_witness :
  valid_engine page1 = true /\ (0 <= current_page page1)%Z /\
  nth_error (get_page_items page1 (current_page page1)) 1 = Some (mkMenuItem "D" "D" 0%Z) /\
  exists k ls rest,
    display_page (fun s => s) page1 (current_page page1)
    = Some (String.concat newline (ls ++ rest)) /\
    nth_error ls 1 = Some (String k "" ++ ": D (D)") /\
    navigate page1 (String k "") = Returned (set_selection page1 "D") /\
    (forall line lines, strip line = String k "" -> run page1 (line :: lines) = RunReturned "D").
Proof.
  assert (Hv : valid_engine page1 = true) by (vm_compute; reflexivity).
  assert (Hp : (0 <= current_page page1)%Z) by (vm_compute; discriminate).
  assert (Hi : nth_error (get_page_items page1 (current_page page1)) 1
               = Some (mkMenuItem "D" "D" 0%Z)) by (vm_compute; reflexivity).
  split; [exact Hv|]. split; [exact Hp|]. split; [exact Hi|].
  exact (displayed_key_selects_displayed_item (fun s => s) page1 1 _ Hv Hp Hi
           ltac:(intros j Hj; destruct j; [vm_compute; discriminate | lia])).
Defined.

Lemma run_whitespace_key_is_empty_line_witness :
  is_space " "%char = true /\
  run abcde [" "; "b"] = run abcde [""; "b"] /\
  run abcde [" "; "b"] = RunReturned "A".
Proof.
  split; [reflexivity|]. split; [|vm_compute; reflexivity].
  exact (proj2 (run_whitespace_key_is_empty_line abcde " "%char ["b"] eq_refl)).
Defined.

Lemma construct_keeps_page_size_witness :
  sample_menu ["A"; "B"; "C"; "D"; "E"] 2 "abcdef" = inr (unwrap (sample_menu ["A"; "B"; "C"; "D"; "E"] 2 "abcdef")) /\
  keys (unwrap (sample_menu ["A"; "B"; "C"; "D"; "E"] 2 "abcdef")) = "ab" /\
  page_size (unwrap (sample_menu ["A"; "B"; "C"; "D"; "E"] 2 "abcdef")) = 2%Z.
Proof.
  assert (H : sample_menu ["A"; "B"; "C"; "D"; "E"] 2 "abcdef"
              = inr (unwrap (sample_menu ["A"; "B"; "C"; "D"; "E"] 2 "abcdef")))
    by (vm_compute; reflexivity).
  split; [exact H|]. split; [vm_compute; reflexivity|].
  exact (proj1 (construct_keeps_page_size (fun s => s) (fun _ => Some 0%Z) []
                  ["A"; "B"; "C"; "D"; "E"] [] [] 2 "abcdef" "." "," (Some "<") (Some ">")
                  "default" _ H)).
Defined.

Lemma construct_rejects_empty_nav_key_witness :
  parse_items (fun s : string => s) (fun _ => Some 0%Z) [] ["A"; "B"] [] [] <> None /\
  ("" = "" \/ "," = "") /\
  exists msg, construct (fun s : string => s) (fun _ => Some 0%Z) [] ["A"; "B"] [] [] 2 "ab"
                "" "," None None "default" = inl (ValueError msg).
Proof.
  assert (Hp : parse_items (fun s : string => s) (fun _ => Some 0%Z) [] ["A"; "B"] [] []
               <> None) by (vm_compute; discriminate).
  split; [exact Hp|]. split; [left; reflexivity|].
  exact (construct_rejects_empty_nav_key (fun s : string => s) (fun _ => Some 0%Z) [] ["A"; "B"]
           [] [] 2 "ab" "" "," None None "default" Hp (or_introl eq_refl)).
Defined.

End Further_checks.
